(** * hackernews-react-graphql: the resolver map and the ShowNew page

    A shallow embedding of [src/pages/front.tsx] (the GraphQL schema
    declaration and the [resolvers] object) and of the ShowNew page
    component, with the properties its specification states about them.

    The resolvers are thin: each one either returns a value computed from
    its arguments, throws, or returns what one service method of the
    request context returns.  Service methods live outside these sources,
    so a resolver is embedded as the decision it takes ([Resolver]) and the
    services are a parameter of the semantics ([run]). *)

From Stdlib Require Import ZArith String Ascii List Lia.
From Stdlib Require Import DecimalString DecimalZ DecimalPos DecimalFacts.
From stdpp Require Import base option list strings gmap.

Local Open Scope string_scope.
Local Open Scope Z_scope.

(** ** The fragment of JavaScript the sources use *)

Module JS.

(** A number is NaN or an integer.  Doubles hold every integer of
    magnitude at most 2^53 exactly; [exact] refuses anything larger, so
    an operation of this development never returns a rounded result.
    The two zeros of JavaScript are one [Int 0]: nothing here tells them
    apart (both are falsy, both compare equal). *)
Inductive Number := NaN | Int (z : Z).

#[global] Instance Number_eq_dec : EqDecision Number.
Proof. solve_decision. Defined.

Definition exact (z : Z) : option Number :=
  if decide (Z.abs z ≤ 2 ^ 53) then Some (Int z) else None.

(** A position that the schema types as [A] but that may also hold
    [undefined] (argument or property absent) or [null]. *)
Inductive Nullable (A : Type) := Undefined | Null | Val (a : A).
#[global] Arguments Undefined {A}.
#[global] Arguments Null {A}.
#[global] Arguments Val {A} a.

#[global] Instance Nullable_eq_dec `{EqDecision A} : EqDecision (Nullable A).
Proof. solve_decision. Defined.

(** ToBoolean, by type. *)
Class ToBoolean (A : Type) := to_boolean : A → bool.

#[global] Instance ToBoolean_Number : ToBoolean Number := λ n,
  match n with
  | NaN => false
  | Int z => negb (z =? 0)
  end.

#[global] Instance ToBoolean_string : ToBoolean string := λ s,
  match s with
  | EmptyString => false
  | String _ _ => true
  end.

#[global] Instance ToBoolean_Nullable `{ToBoolean A} : ToBoolean (Nullable A) := λ v,
  match v with
  | Undefined | Null => false
  | Val a => to_boolean a
  end.

(** ToNumber of an optional integer: [undefined] is NaN, [null] is 0. *)
Definition ToNumber (v : Nullable Z) : Number :=
  match v with
  | Undefined => NaN
  | Null => Int 0
  | Val z => Int z
  end.

(** [x < y] and [x > y] on numbers: a comparison with NaN is false. *)
Definition lt (x y : Number) : bool :=
  match x, y with
  | Int a, Int b => a <? b
  | _, _ => false
  end.

Definition gt (x y : Number) : bool := lt y x.

(** SameValueZero, the comparison of [Array.prototype.includes], on the
    values a list of optional strings holds. *)
Definition SameValueZero (x y : Nullable string) : bool :=
  match x, y with
  | Undefined, Undefined => true
  | Null, Null => true
  | Val s, Val t => String.eqb s t
  | _, _ => false
  end.

Definition isString (v : Nullable string) : bool :=
  match v with
  | Val _ => true
  | Undefined | Null => false
  end.

(** [array.includes(searchElement)]: scan from index 0, stop at the first
    element that is SameValueZero to the searched one. *)
Fixpoint includes (array : list (Nullable string)) (searchElement : Nullable string) : bool :=
  match array with
  | [] => false
  | elementK :: rest =>
      if SameValueZero searchElement elementK then true
      else includes rest searchElement
  end.

(** *** Strings read as numbers

    A string is a sequence of characters with codes below 256.  The
    parsers below answer for ASCII text; on a character of code 128 or
    more (which may stand for one of the Unicode white spaces that
    JavaScript trims) they answer [None], as they do for a numeric literal
    that is not a plain decimal integer: such a text is outside this
    development, never misread. *)

Definition code (a : ascii) : N := N_of_ascii a.

Definition isASCII (a : ascii) : bool := (code a <? 128)%N.

Definition isDigit (a : ascii) : bool := (48 <=? code a)%N && (code a <=? 57)%N.

Definition digitValue (a : ascii) : Z := Z.of_N (code a) - 48.

(** TAB, LF, VT, FF, CR and SP. *)
Definition isWhiteSpace (a : ascii) : bool :=
  (9 <=? code a)%N && (code a <=? 13)%N || (code a =? 32)%N.

Definition chars (s : string) : list ascii := list_ascii_of_string s.

Fixpoint trimStart (s : string) : string :=
  match s with
  | String a rest => if isWhiteSpace a then trimStart rest else s
  | EmptyString => EmptyString
  end.

Fixpoint trimEnd (s : string) : string :=
  match s with
  | EmptyString => EmptyString
  | String a rest =>
      match trimEnd rest with
      | EmptyString => if isWhiteSpace a then EmptyString else String a EmptyString
      | rest' => String a rest'
      end
  end.

(** The value of the longest run of decimal digits at the start of [s],
    read left to right onto [acc]. *)
Fixpoint parseDigits (acc : Z) (s : string) : Z :=
  match s with
  | String a rest => if isDigit a then parseDigits (10 * acc + digitValue a) rest else acc
  | EmptyString => acc
  end.

Definition startsWithDigit (s : string) : bool :=
  match s with
  | String a _ => isDigit a
  | EmptyString => false
  end.

(** An optional leading sign and the rest of the text. *)
Definition splitSign (s : string) : Z * string :=
  match s with
  | String "-" rest => (-1, rest)
  | String "+" rest => (1, rest)
  | _ => (1, s)
  end.

(** [parseInt(string, 10)]: leading white space is dropped, then a sign,
    then the longest run of digits is read; NaN when there is none. *)
Definition parseInt (inputString : string) : option Number :=
  let S := trimStart inputString in
  if negb (forallb isASCII (firstn 1 (chars S))) then None
  else
    let (sign, S) := splitSign S in
    if startsWithDigit S then exact (sign * parseDigits 0 S) else Some NaN.

(** Characters that occur in some numeric literal: digits, the sign, the
    dot, the exponent mark, the radix prefixes with their digits and the
    letters of [Infinity]. *)
Definition numericChar (a : ascii) : bool :=
  isDigit a || existsb (Ascii.eqb a) (chars ".+-abcdefABCDEFxXoOInity").

(** ToNumber of a string, as unary [+] applies it: surrounding white space
    is dropped; the empty text is 0; a signed run of digits is its value;
    a text that is no numeric literal is NaN.  Every numeric literal but
    [Infinity] holds a digit, and every character of a literal is a
    [numericChar]; what passes both tests without being a plain integer
    (a fraction, an exponent, a radix prefix) is left unanswered. *)
Definition StringToNumber (str : string) : option Number :=
  if negb (forallb isASCII (chars str)) then None
  else
    let text := trimEnd (trimStart str) in
    let (sign, digits) := splitSign text in
    if (text =? "")%string then Some (Int 0)
    else if startsWithDigit digits && forallb isDigit (chars digits)
    then exact (sign * parseDigits 0 digits)
    else if existsb isDigit (chars text)
    then (if forallb numericChar (chars text) then None else Some NaN)
    else (if (digits =? "Infinity")%string then None else Some NaN).

(** [x * y]: NaN if an operand is, the exact product otherwise. *)
Definition mul (x y : Number) : option Number :=
  match x, y with
  | Int a, Int b => exact (a * b)
  | _, _ => Some NaN
  end.

(** TimeClip: the time value of a [Date] is NaN or a number of
    milliseconds of magnitude at most 8.64e15. *)
Definition TimeClip (time : Number) : Number :=
  match time with
  | NaN => NaN
  | Int t => if decide (Z.abs t ≤ 8640000000000000) then Int t else NaN
  end.

(** The decimal text of an integer, as the GraphQL lexer accepts it for an
    [IntValue] and as a browser writes a page number into a URL. *)
Definition decimal (z : Z) : string := NilEmpty.string_of_int (Z.to_int z).

(** A value of any type, where the code takes one: primitives, and [Date]
    objects with their time value. *)
Inductive Value :=
| VUndefined
| VNull
| VBoolean (b : bool)
| VNumber (n : Number)
| VString (s : string)
| VDate (time : Number).

Definition instanceofDate (value : Value) : bool :=
  match value with
  | VDate _ => true
  | _ => false
  end.

Inductive Exception := Error (message : string).

Definition message (e : Exception) : string :=
  match e with Error m => m end.

End JS.

Import JS.

(** ** The schema: [typeDefs] *)

(** [enum FeedType { top new best show ask job }].  Enum values are names,
    and a name is matched exactly, letter case included. *)
Module FeedType.

Inductive t := top | new | best | show | ask | job.

#[global] Instance t_eq_dec : EqDecision t.
Proof. solve_decision. Defined.

Definition values : list t := [top; new; best; show; ask; job].

Definition name (v : t) : string :=
  match v with
  | top => "top"
  | new => "new"
  | best => "best"
  | show => "show"
  | ask => "ask"
  | job => "job"
  end.

(** Coercion of an input value (a variable sent by a client) to the enum:
    the value with exactly that name, if there is one. *)
Definition parseValue (s : string) : option t :=
  List.find (λ v, String.eqb (name v) s) values.

End FeedType.

(** ** Services of the request context *)

(** The methods the resolvers call on [context.CommentService],
    [context.FeedSingleton], [context.NewsItemService] and
    [context.UserService], with the arguments they are given.  The object
    handed to [submitNewsItem] is a finite map from property names to
    values. *)
Inductive ServiceCall :=
| CommentService_getComment (id : Z)
| CommentService_getComments (ids : list Z)
| FeedSingleton_getForType (type : FeedType.t) (limit skip : Nullable Z)
| NewsItemService_getNewsItem (id : Z)
| NewsItemService_upvoteNewsItem (id : Z) (userId : Nullable string)
| NewsItemService_hideNewsItem (id : Z) (userId : Nullable string)
| NewsItemService_submitNewsItem (newsItem : gmap string (Nullable string))
| UserService_getUser (id : Nullable string)
| UserService_getPostsForUser (id : string).

(** What a resolver does: return a value of its own, throw, or return the
    result of one service call. *)
Inductive Resolver (A : Type) :=
| Return (a : A)
| Throw (e : Exception)
| Delegate (c : ServiceCall).
Arguments Return {A} a.
Arguments Throw {A} e.
Arguments Delegate {A} c.

(** The service calls a resolver makes, in order. *)
Definition calls {A} (r : Resolver A) : list ServiceCall :=
match r with
| Delegate c => [c]
| Return _ | Throw _ => []
end.

(** The per-request context, as far as the resolvers read it besides the
    services. *)
Record Context := { userId : Nullable string }.

(** Modelled from the spec: the classes of [./models] are not part of
    these sources.  The Comment and NewsItem records of the data model,
    cut down to the fields the type resolvers read; ids of comments are
    integers, ids of users are strings, and a list of user ids may hold
    [null] (the schema types it [[String]!]).  [upvotes] of a comment is
    the list [resolvers.Comment.upvoted] searches. *)
Record CommentModel := {
  comment_submitterId : string;
  comment_comments : list Z;
  comment_upvotes : list (Nullable string);
}.

Record NewsItemModel := {
  submitterId : string;
  comments : list Z;
  hides : list (Nullable string);
  upvotes : list (Nullable string);
}.

(** ** [resolvers.Query] *)

Module Query.

Definition comment (id : Z) (context : Context) : Resolver Empty_set :=
  Delegate (CommentService_getComment id).

Record FeedArgs := { type : FeedType.t; first : Nullable Z; skip : Nullable Z }.

(** [first < 1 || first > 30 ? 30 : first] is the limit. *)
Definition feed (args : FeedArgs) (context : Context) : Resolver Empty_set :=
  let first := first args in
  let limit :=
    if lt (ToNumber first) (Int 1) || gt (ToNumber first) (Int 30) then Val 30 else first in
  Delegate (FeedSingleton_getForType (type args) limit (skip args)).

(** [context.userId && context.UserService.getUser(context.userId)]: the
    left operand itself when it is falsy, the right one otherwise. *)
Definition me (context : Context) : Resolver (Nullable string) :=
  if to_boolean (userId context)
  then Delegate (UserService_getUser (userId context))
  else Return (userId context).

Definition newsItem (id : Z) (context : Context) : Resolver Empty_set :=
  Delegate (NewsItemService_getNewsItem id).

Definition user (id : string) (context : Context) : Resolver Empty_set :=
  Delegate (UserService_getUser (Val id)).

End Query.

(** ** [resolvers.Mutation] *)

Module Mutation.

Definition upvoteNewsItem (id : Z) (context : Context) : Resolver Empty_set :=
  if negb (to_boolean (userId context)) then Throw (Error "Must be logged in to vote.")
  else Delegate (NewsItemService_upvoteNewsItem id (userId context)).

Definition hideNewsItem (id : Z) (context : Context) : Resolver Empty_set :=
  if negb (to_boolean (userId context)) then Throw (Error "Must be logged in to hide post.")
  else Delegate (NewsItemService_hideNewsItem id (userId context)).

(** [{ ...newsItem, submitterId: context.userId }]: the own properties of
    the arguments object, then [submitterId] set (or overwritten). *)
Definition submitNewsItem (newsItem : gmap string (Nullable string)) (context : Context)
  : Resolver Empty_set :=
  if negb (to_boolean (userId context))
  then Throw (Error "Must be logged in to submit a news item.")
  else Delegate (NewsItemService_submitNewsItem (<["submitterId" := userId context]> newsItem)).

(** A mutation field together with its arguments. *)
Inductive Request :=
| UpvoteNewsItem (id : Z)
| HideNewsItem (id : Z)
| SubmitNewsItem (newsItem : gmap string (Nullable string)).

Definition resolve (req : Request) (context : Context) : Resolver Empty_set :=
  match req with
  | UpvoteNewsItem id => upvoteNewsItem id context
  | HideNewsItem id => hideNewsItem id context
  | SubmitNewsItem newsItem => submitNewsItem newsItem context
  end.

(** The service method a mutation field forwards to. *)
Definition service (req : Request) (context : Context) : ServiceCall :=
  match req with
  | UpvoteNewsItem id => NewsItemService_upvoteNewsItem id (userId context)
  | HideNewsItem id => NewsItemService_hideNewsItem id (userId context)
  | SubmitNewsItem newsItem =>
      NewsItemService_submitNewsItem (<["submitterId" := userId context]> newsItem)
  end.

End Mutation.

(** ** Type resolvers: [resolvers.Comment], [resolvers.NewsItem], [resolvers.User] *)

Module Comment.

Definition author (comment : CommentModel) (context : Context) : Resolver Empty_set :=
  Delegate (UserService_getUser (Val (comment_submitterId comment))).

Definition comments (comment : CommentModel) (context : Context) : Resolver Empty_set :=
  Delegate (CommentService_getComments (comment_comments comment)).

Definition upvoted (comment : CommentModel) (context : Context) : bool :=
  includes (comment_upvotes comment) (userId context).

End Comment.

Module NewsItem.

Definition author (newsItem : NewsItemModel) (context : Context) : Resolver Empty_set :=
  Delegate (UserService_getUser (Val (submitterId newsItem))).

Definition comments (newsItem : NewsItemModel) (context : Context) : Resolver Empty_set :=
  Delegate (CommentService_getComments (comments newsItem)).

Definition hidden (newsItem : NewsItemModel) (context : Context) : bool :=
  includes (hides newsItem) (userId context).

Definition upvoted (newsItem : NewsItemModel) (context : Context) : bool :=
  includes (upvotes newsItem) (userId context).

End NewsItem.

Module User.

Definition posts (user : string) (context : Context) : Resolver Empty_set :=
  Delegate (UserService_getPostsForUser user).

End User.

(** ** Running a resolver against the services *)

Inductive Completion (A : Type) :=
| Normal (a : A)
| Abrupt (e : Exception).
Arguments Normal {A} a.
Arguments Abrupt {A} e.

Section Services.

(** The state the services keep and the results their methods give are
    left open; a method may change the state and may itself throw. *)
Context {State Result : Type}.
Variable perform : ServiceCall → State → Completion Result * State.

Definition run {A} (r : Resolver A) (σ : State) : Completion (A + Result) * State :=
  match r with
  | Return a => (Normal (inl a), σ)
  | Throw e => (Abrupt e, σ)
  | Delegate c =>
      match perform c σ with
      | (Normal v, σ') => (Normal (inr v), σ')
      | (Abrupt e, σ') => (Abrupt e, σ')
      end
  end.

End Services.

(** A service whose state counts the calls it received. *)
Definition counting (c : ServiceCall) (n : nat) : Completion unit * nat := (Normal (), S n).

(** ** [resolvers.Date]: the Date scalar *)

Module Date.

(** [Kind] of [graphql/language], for the nodes that stand for a value. *)
Inductive Kind := INT | FLOAT | STRING | BOOLEAN | NULL | ENUM | LIST | OBJECT | VARIABLE.

#[global] Instance Kind_eq_dec : EqDecision Kind.
Proof. solve_decision. Defined.

#[local] Unset Elimination Schemes.
Inductive ValueNode :=
| IntValueNode (value : string)
| FloatValueNode (value : string)
| StringValueNode (value : string)
| BooleanValueNode (value : bool)
| NullValueNode
| EnumValueNode (value : string)
| ListValueNode (values : list ValueNode)
| ObjectValueNode (fields : list (string * ValueNode))
| VariableNode (name : string).
#[local] Set Elimination Schemes.

Definition kind (ast : ValueNode) : Kind :=
  match ast with
  | IntValueNode _ => INT
  | FloatValueNode _ => FLOAT
  | StringValueNode _ => STRING
  | BooleanValueNode _ => BOOLEAN
  | NullValueNode => NULL
  | EnumValueNode _ => ENUM
  | ListValueNode _ => LIST
  | ObjectValueNode _ => OBJECT
  | VariableNode _ => VARIABLE
  end.

(** [value instanceof Date ? value.valueOf() : value] *)
Definition serialize (value : Value) : Value :=
  match value with
  | VDate time => VNumber time
  | _ => value
  end.

(** [new Date(value).valueOf()].  The constructor takes the time value of
    a [Date], reads a string as a date text (a format this development
    leaves unanswered) and converts any other primitive to a number:
    [undefined] to NaN, [null] to 0, a boolean to 0 or 1.  What it stores,
    and [valueOf] returns, is that number clipped by [TimeClip]. *)
Definition parseValue (value : Value) : option Number :=
  tv ← match value with
       | VDate time => Some time
       | VString _ => None
       | VUndefined => Some NaN
       | VNull => Some (Int 0)
       | VBoolean b => Some (Int (if b then 1 else 0))
       | VNumber n => Some n
       end;
  Some (TimeClip tv).

(** [ast.kind === Kind.INT ? parseInt(ast.value, 10) : null] *)
Definition parseLiteral (ast : ValueNode) : option (Nullable Number) :=
  match ast with
  | IntValueNode value => Val <$> parseInt value
  | _ => Some Null
  end.

End Date.

(** ** The ShowNew page *)

Module ShowNew.

Definition POSTS_PER_PAGE : Number := Int 30.

(** A parameter of the URL query: its text, or the texts of all its
    occurrences when it is repeated. *)
Inductive ParamValue := Single (s : string) | Repeated (values : list string).

(** Unary [+] on [query.p]: an absent property is [undefined], hence NaN;
    an array is first joined with commas. *)
Definition ToNumber_param (v : option ParamValue) : option Number :=
  match v with
  | None => Some NaN
  | Some (Single s) => StringToNumber s
  | Some (Repeated values) => StringToNumber (String.concat "," values)
  end.

Record Url := { pathname : string; query : Nullable (gmap string ParamValue) }.

Record Props := { url : Url }.

(** [(props.url.query && +props.url.query.p) || 0] *)
Definition pageNumber (props : Props) : option Number :=
  match query (url props) with
  | Val query =>
      n ← ToNumber_param (query !! "p");
      Some (if to_boolean n then n else Int 0)
  | Undefined | Null => Some (Int 0)
  end.

(** The [options] property handed to [ShowHNNewsFeed]; [notice] is fixed
    markup and is left out. *)
Record FeedOptions := { currentUrl : string; first : Number; skip : Number }.

Definition ShowNewPage (props : Props) : option FeedOptions :=
  pageNumber ← pageNumber props;
  skip ← mul POSTS_PER_PAGE pageNumber;
  Some {| currentUrl := pathname (url props); first := POSTS_PER_PAGE; skip := skip |}.

(** Variables of the [topNewsItems] query. *)
Record Variables := { var_type : string; var_first : Number; var_skip : Number }.

(** The [options] function of [ShowHNNewsFeed]. *)
Definition ShowHNNewsFeed (options : FeedOptions) : Variables :=
  {| var_type := "SHOW"; var_first := first options; var_skip := skip options |}.

(** The variables the page sends with its feed query. *)
Definition request (props : Props) : option Variables :=
  ShowHNNewsFeed <$> ShowNewPage props.

End ShowNew.

(** * Properties *)

(** ** Membership *)

Lemma SameValueZero_eq (x y : Nullable string) : SameValueZero x y = true ↔ x = y.
Proof.
  destruct x as [| |s], y as [| |t]; simpl; try (split; congruence).
  rewrite String.eqb_eq. split; congruence.
Qed.

Lemma includes_elem_of (array : list (Nullable string)) (x : Nullable string) :
  includes array x = true ↔ x ∈ array.
Proof.
  induction array as [|y rest IH]; simpl.
  - split; [discriminate | intros H; inversion H].
  - rewrite elem_of_cons. destruct (SameValueZero x y) eqn:E.
    + apply SameValueZero_eq in E. tauto.
    + rewrite IH. split; [tauto | intros [->|H]; [|exact H]].
      assert (SameValueZero y y = true) by (now apply SameValueZero_eq). congruence.
Qed.

Lemma includes_decide (array : list (Nullable string)) (x : Nullable string) :
  includes array x = bool_decide (x ∈ array).
Proof.
  destruct (includes array x) eqn:E; symmetry.
  - apply bool_decide_eq_true, includes_elem_of, E.
  - apply bool_decide_eq_false. rewrite <- includes_elem_of. congruence.
Qed.

(** ** Decimal texts are read back as the integer they write *)

Section Decimal.

Import NilEmpty.

Ltac by_char a := destruct a as [[|] [|] [|] [|] [|] [|] [|] [|]]; try discriminate; reflexivity.

Lemma digit_not_space a : isDigit a = true → isWhiteSpace a = false.
Proof. by_char a. Qed.

Lemma digit_ascii a : isDigit a = true → isASCII a = true.
Proof. by_char a. Qed.

Lemma digit_not_sign a rest : isDigit a = true → splitSign (String a rest) = (1, String a rest).
Proof. by_char a. Qed.

Lemma parseDigits_of_uint_acc d acc :
  parseDigits (Z.pos acc) (string_of_uint d) = Z.pos (Pos.of_uint_acc d acc).
Proof.
  revert acc. induction d; intros acc; cbn [string_of_uint Pos.of_uint_acc parseDigits];
    [reflexivity | ..];
    (match goal with |- context [isDigit ?c] => change (isDigit c) with true end);
    cbv iota; rewrite <- IHd; f_equal; unfold digitValue; simpl; lia.
Qed.

Lemma parseDigits_of_uint d : parseDigits 0 (string_of_uint d) = Z.of_N (Pos.of_uint d).
Proof.
  induction d; cbn [string_of_uint Pos.of_uint parseDigits];
    [reflexivity | ..];
    (match goal with |- context [isDigit ?c] => change (isDigit c) with true end);
    cbv iota;
    [exact IHd | ..];
    (match goal with |- parseDigits ?k _ = _ =>
       let k' := eval compute in k in
       change k with k' end);
    now rewrite parseDigits_of_uint_acc.
Qed.

Lemma string_of_uint_digits d : forallb isDigit (chars (string_of_uint d)) = true.
Proof. induction d; simpl; auto. Qed.

Lemma string_of_uint_starts d : d ≠ Decimal.Nil → startsWithDigit (string_of_uint d) = true.
Proof. destruct d; intros H; [congruence | reflexivity ..]. Qed.

Lemma forallb_digit_ascii s : forallb isDigit (chars s) = true → forallb isASCII (chars s) = true.
Proof.
  induction s as [|a s IH]; simpl; [reflexivity|].
  rewrite !andb_true_iff. intros [Ha Hs]. auto using digit_ascii.
Qed.

Lemma trimStart_digit s : startsWithDigit s = true → trimStart s = s.
Proof. destruct s as [|a s]; simpl; [reflexivity|]. intros H. now rewrite digit_not_space. Qed.

Lemma trimEnd_digits s : forallb isDigit (chars s) = true → trimEnd s = s.
Proof.
  induction s as [|a s IH]; simpl; [reflexivity|].
  rewrite andb_true_iff. intros [Ha Hs]. rewrite (IH Hs), (digit_not_space _ Ha).
  now destruct s.
Qed.

Lemma exact_safe z : Z.abs z ≤ 2 ^ 53 → exact z = Some (Int z).
Proof. intros H. unfold exact. now rewrite decide_True. Qed.

(** The digits of a positive number, read by either parser. *)
Lemma parseDigits_to_uint p : parseDigits 0 (string_of_uint (Pos.to_uint p)) = Z.pos p.
Proof. now rewrite parseDigits_of_uint, DecimalPos.Unsigned.of_to. Qed.

Lemma parseInt_decimal z : Z.abs z ≤ 2 ^ 53 → parseInt (decimal z) = Some (Int z).
Proof.
  intros Hz. destruct z as [|p|p]; [reflexivity | ..]; unfold decimal, parseInt; simpl Z.to_int;
    cbn [string_of_int];
    pose proof (string_of_uint_starts _ (DecimalPos.Unsigned.to_uint_nonnil p)) as Hs;
    pose proof (parseDigits_to_uint p) as Hv.
  - rewrite (trimStart_digit _ Hs).
    destruct (string_of_uint (Pos.to_uint p)) as [|a s] eqn:E; [discriminate|].
    simpl in Hs. cbn [chars list_ascii_of_string firstn forallb].
    rewrite (digit_ascii _ Hs), (digit_not_sign _ _ Hs). cbn [negb andb startsWithDigit].
    rewrite Hs, Hv. apply exact_safe. lia.
  - cbn [trimStart]. change (isWhiteSpace "-") with false. cbv iota.
    cbn [chars list_ascii_of_string firstn forallb splitSign].
    change (isASCII "-") with true. cbn [negb andb].
    rewrite Hs, Hv. apply exact_safe. lia.
Qed.

Lemma StringToNumber_decimal z : Z.abs z ≤ 2 ^ 53 → StringToNumber (decimal z) = Some (Int z).
Proof.
  intros Hz. destruct z as [|p|p]; [reflexivity | ..]; unfold decimal, StringToNumber; simpl Z.to_int;
    cbn [string_of_int];
    pose proof (string_of_uint_starts _ (DecimalPos.Unsigned.to_uint_nonnil p)) as Hs;
    pose proof (string_of_uint_digits (Pos.to_uint p)) as Hd;
    pose proof (parseDigits_to_uint p) as Hv.
  - rewrite (forallb_digit_ascii _ Hd), (trimStart_digit _ Hs), (trimEnd_digits _ Hd).
    destruct (string_of_uint (Pos.to_uint p)) as [|a s] eqn:E; [discriminate|].
    simpl in Hs. rewrite (digit_not_sign _ _ Hs). cbn [negb String.eqb startsWithDigit].
    rewrite Hs, Hd, Hv. cbn [andb]. apply exact_safe. lia.
  - cbn [chars list_ascii_of_string forallb]. fold (chars (string_of_uint (Pos.to_uint p))).
    rewrite (forallb_digit_ascii _ Hd). change (isASCII "-") with true.
    cbn [andb negb trimStart]. change (isWhiteSpace "-") with false. cbv iota.
    cbn [trimEnd]. rewrite (trimEnd_digits _ Hd).
    destruct (string_of_uint (Pos.to_uint p)) as [|a s] eqn:E; [discriminate|].
    cbn [splitSign String.eqb]. change (Ascii.eqb "-" "-") with true. 
    rewrite Hs, Hd, Hv. cbn [andb]. apply exact_safe. lia.
Qed.

End Decimal.

(** ** The feed query *)

(** With an integer [first], the limit is [first] inside 1..30 and 30
    outside, and [type] and [skip] go through as they came. *)
Lemma feed_integer_first type (z : Z) skip context :
  Query.feed {| Query.type := type; Query.first := Val z; Query.skip := skip |} context
  = Delegate (FeedSingleton_getForType type (Val (if decide (0 < z ≤ 30) then z else 30)) skip).
Proof.
  unfold Query.feed, lt, gt, lt; simpl.
  destruct (Z.ltb_spec z 1), (Z.ltb_spec 30 z); simpl; case_decide; try lia; reflexivity.
Qed.

(** [null < 1] compares 0 with 1: an explicit [null] gives the limit 30. *)
Lemma feed_null_first type skip context :
  Query.feed {| Query.type := type; Query.first := Null; Query.skip := skip |} context
  = Delegate (FeedSingleton_getForType type (Val 30) skip).
Proof. reflexivity. Qed.

(** C1, at the input where the code leaves it: when [first] is absent the
    argument is [undefined], both comparisons with NaN are false, and the
    limit handed to [FeedSingleton.getForType] is [undefined] instead of
    30.  ([type] and [skip] are forwarded unchanged here as everywhere.) *)
Theorem feed_absent_first_limit_undefined type skip context :
  Query.feed {| Query.type := type; Query.first := Undefined; Query.skip := skip |} context
  = Delegate (FeedSingleton_getForType type Undefined skip).
Proof. reflexivity. Qed.

(** ** Mutations and the logged-in check *)

Lemma falsy_userId (v : Nullable string) :
  to_boolean v = false ↔ v = Undefined ∨ v = Null ∨ v = Val "".
Proof.
  destruct v as [| |[|a s]]; simpl; split; intros H; auto; try discriminate.
  destruct H as [H|[H|H]]; discriminate.
Qed.

(** C2: for each of the three mutations, when [context.userId] is not set
    (it is falsy: [undefined], [null] or the empty string) the resolver
    throws an [Error] whose message starts with "Must be logged in"; when
    it is set the resolver throws nothing and returns the call of the
    service method of the same name. *)
Theorem mutation_requires_login (req : Mutation.Request) (context : Context) :
  (to_boolean (userId context) = false →
     ∃ msg, Mutation.resolve req context = Throw (Error msg)
            ∧ String.prefix "Must be logged in" msg = true)
  ∧ (to_boolean (userId context) = true →
     Mutation.resolve req context = Delegate (Mutation.service req context)
     ∧ calls (Mutation.resolve req context) = [Mutation.service req context]).
Proof.
  split; intros H; destruct req; simpl;
    unfold Mutation.upvoteNewsItem, Mutation.hideNewsItem, Mutation.submitNewsItem;
    rewrite H; simpl; eauto.
Qed.

Lemma mutation_requires_login_witness :
  (∃ msg, Mutation.resolve (Mutation.UpvoteNewsItem 7) {| userId := Undefined |} = Throw (Error msg)
          ∧ String.prefix "Must be logged in" msg = true)
  ∧ Mutation.resolve (Mutation.HideNewsItem 7) {| userId := Val "alice" |}
    = Delegate (NewsItemService_hideNewsItem 7 (Val "alice")).
Proof.
  split.
  - apply (proj1 (mutation_requires_login (Mutation.UpvoteNewsItem 7) {| userId := Undefined |})).
    reflexivity.
  - apply (proj2 (mutation_requires_login (Mutation.HideNewsItem 7) {| userId := Val "alice" |})).
    reflexivity.
Defined.

(** C9: a mutation that fails for want of a user makes no service call,
    and running it against any services leaves their state as it was. *)
Theorem unauthenticated_mutation_leaves_state
    {State Result : Type} (perform : ServiceCall → State → Completion Result * State)
    (req : Mutation.Request) (context : Context) (σ : State) :
  to_boolean (userId context) = false →
  calls (Mutation.resolve req context) = []
  ∧ ∃ e, run perform (Mutation.resolve req context) σ = (Abrupt e, σ).
Proof.
  intros H. destruct req; simpl;
    unfold Mutation.upvoteNewsItem, Mutation.hideNewsItem, Mutation.submitNewsItem;
    rewrite H; simpl; eauto.
Qed.

Lemma unauthenticated_mutation_leaves_state_witness :
  calls (Mutation.resolve (Mutation.SubmitNewsItem ∅) {| userId := Null |}) = []
  ∧ ∃ e, run counting (Mutation.resolve (Mutation.SubmitNewsItem ∅) {| userId := Null |}) 0%nat
         = (Abrupt e, 0%nat).
Proof.
  apply (unauthenticated_mutation_leaves_state counting (Mutation.SubmitNewsItem ∅)
           {| userId := Null |} 0%nat).
  reflexivity.
Defined.

(** C8: the record an authenticated [submitNewsItem] hands to the service
    has [submitterId] equal to [context.userId] whatever the arguments
    held under that name, and every other property, [title], [url] and
    [text] among them, as the arguments had it. *)
Theorem submitNewsItem_submitter (newsItem : gmap string (Nullable string)) (context : Context) :
  to_boolean (userId context) = true →
  ∃ record : gmap string (Nullable string),
    Mutation.submitNewsItem newsItem context = Delegate (NewsItemService_submitNewsItem record)
    ∧ record !! "submitterId" = Some (userId context)
    ∧ record !! "title" = newsItem !! "title"
    ∧ record !! "url" = newsItem !! "url"
    ∧ record !! "text" = newsItem !! "text"
    ∧ ∀ key : string, key ≠ "submitterId" → record !! key = newsItem !! key.
Proof.
  intros H. unfold Mutation.submitNewsItem. rewrite H. simpl.
  eexists. split; [reflexivity|].
  rewrite lookup_insert_eq, !lookup_insert_ne by discriminate.
  repeat split. intros key Hkey. now rewrite lookup_insert_ne.
Qed.

Lemma submitNewsItem_submitter_witness :
  ∃ record : gmap string (Nullable string),
    Mutation.submitNewsItem {[ "title" := Val "Show HN"; "submitterId" := Val "mallory" ]}
      {| userId := Val "alice" |} = Delegate (NewsItemService_submitNewsItem record)
    ∧ record !! "submitterId" = Some (Val "alice")
    ∧ record !! "title" = Some (Val "Show HN").
Proof.
  destruct (submitNewsItem_submitter
              {[ "title" := Val "Show HN"; "submitterId" := Val "mallory" ]}
              {| userId := Val "alice" |} eq_refl) as (record & Hcall & Hsub & Htitle & _).
  exists record. split; [exact Hcall|]. split; [exact Hsub|].
  rewrite Htitle. reflexivity.
Defined.

(** ** The [me] query *)

(** C6: [me] looks at [context.userId] once.  When it is set the resolver
    returns [UserService.getUser(context.userId)]; when it is not, it
    returns [context.userId] itself, which is then [undefined], [null] or
    the empty string and no user, and it calls no service. *)
Theorem me_null_check (context : Context) :
  (to_boolean (userId context) = true →
     Query.me context = Delegate (UserService_getUser (userId context)))
  ∧ (to_boolean (userId context) = false →
     Query.me context = Return (userId context)
     ∧ calls (Query.me context) = []
     ∧ (userId context = Undefined ∨ userId context = Null ∨ userId context = Val "")).
Proof.
  unfold Query.me. split; intros H; rewrite H; [reflexivity|].
  repeat split. now apply falsy_userId.
Qed.

Lemma me_null_check_witness :
  Query.me {| userId := Val "alice" |} = Delegate (UserService_getUser (Val "alice"))
  ∧ Query.me {| userId := Undefined |} = Return Undefined.
Proof.
  split.
  - apply (proj1 (me_null_check {| userId := Val "alice" |})). reflexivity.
  - apply (proj2 (me_null_check {| userId := Undefined |})). reflexivity.
Defined.

(** ** The [upvoted] and [hidden] flags *)

(** C3: [upvoted] of a comment and of a news item is the membership of
    [context.userId] in the item's [upvotes], and [hidden] of a news item
    is its membership in the item's [hides]. *)
Theorem flags_are_membership (comment : CommentModel) (newsItem : NewsItemModel) (context : Context) :
  Comment.upvoted comment context = bool_decide (userId context ∈ comment_upvotes comment)
  ∧ NewsItem.upvoted newsItem context = bool_decide (userId context ∈ upvotes newsItem)
  ∧ NewsItem.hidden newsItem context = bool_decide (userId context ∈ hides newsItem).
Proof.
  unfold Comment.upvoted, NewsItem.upvoted, NewsItem.hidden.
  now rewrite !includes_decide.
Qed.

Lemma includes_absent_user (array : list (Nullable string)) (x : Nullable string) :
  x = Undefined ∨ x = Null → forallb isString array = true → includes array x = false.
Proof.
  intros Hx. induction array as [|y rest IH]; simpl; [reflexivity|].
  rewrite andb_true_iff. intros [Hy Hrest]. rewrite (IH Hrest).
  destruct y; try discriminate. now destruct Hx as [-> | ->].
Qed.

(** C10: when nobody is logged in ([context.userId] is [undefined] or
    [null]) and the lists hold user-id strings only, [upvoted] and
    [hidden] are false. *)
Theorem flags_false_when_logged_out
    (comment : CommentModel) (newsItem : NewsItemModel) (context : Context) :
  userId context = Undefined ∨ userId context = Null →
  forallb isString (comment_upvotes comment) = true →
  forallb isString (upvotes newsItem) = true →
  forallb isString (hides newsItem) = true →
  Comment.upvoted comment context = false
  ∧ NewsItem.upvoted newsItem context = false
  ∧ NewsItem.hidden newsItem context = false.
Proof.
  intros Hu Hc Hup Hh. unfold Comment.upvoted, NewsItem.upvoted, NewsItem.hidden.
  auto using includes_absent_user.
Qed.

Lemma flags_false_when_logged_out_witness :
  Comment.upvoted
    {| comment_submitterId := "bob"; comment_comments := []; comment_upvotes := [Val "alice"] |}
    {| userId := Undefined |} = false
  ∧ NewsItem.upvoted
      {| submitterId := "bob"; comments := [3]; hides := [Val "carol"];
         upvotes := [Val "alice"; Val "bob"] |}
      {| userId := Undefined |} = false
  ∧ NewsItem.hidden
      {| submitterId := "bob"; comments := [3]; hides := [Val "carol"];
         upvotes := [Val "alice"; Val "bob"] |}
      {| userId := Undefined |} = false.
Proof.
  apply flags_false_when_logged_out; [left|..]; reflexivity.
Defined.

(** ** The Date scalar *)

(** C7: [serialize] turns a [Date] into its time value, a number, and
    returns any other value as it is; [parseLiteral] returns
    [parseInt(ast.value, 10)] for a literal of kind [INT], which for the
    decimal text of an integer is that integer, and [null] for a literal
    of any other kind. *)
Theorem Date_scalar_coercion :
  (∀ time, Date.serialize (VDate time) = VNumber time)
  ∧ (∀ value, instanceofDate value = false → Date.serialize value = value)
  ∧ (∀ ast, Date.kind ast = Date.INT →
       ∃ value, ast = Date.IntValueNode value ∧ Date.parseLiteral ast = Val <$> parseInt value)
  ∧ (∀ z, Z.abs z ≤ 2 ^ 53 →
       Date.parseLiteral (Date.IntValueNode (decimal z)) = Some (Val (Int z)))
  ∧ (∀ ast, Date.kind ast ≠ Date.INT → Date.parseLiteral ast = Some Null).
Proof.
  split; [reflexivity|]. split; [now intros []|]. split; [|split].
  - intros [] H; try discriminate. eauto.
  - intros z Hz. simpl. now rewrite parseInt_decimal.
  - now intros [].
Qed.

Lemma Date_scalar_coercion_witness :
  Date.serialize (VString "2018-01-01") = VString "2018-01-01"
  ∧ Date.parseLiteral (Date.IntValueNode (decimal 1514764800000))
    = Some (Val (Int 1514764800000))
  ∧ Date.parseLiteral (Date.StringValueNode "1514764800000") = Some Null.
Proof.
  destruct Date_scalar_coercion as (_ & Hother & _ & Hint & Hnull).
  split; [apply Hother; reflexivity|].
  split; [apply Hint; vm_compute; discriminate|].
  apply Hnull. discriminate.
Defined.

(** ** The ShowNew page *)

(** C4, at the page: the [type] variable the page sends is the text
    [SHOW], which names none of the six values [top], [new], [best],
    [show], [ask], [job] of the schema's [FeedType] (names are matched
    letter for letter), so the schema does not accept it. *)
Theorem ShowNew_type_not_in_schema (options : ShowNew.FeedOptions) :
  ShowNew.var_type (ShowNew.ShowHNNewsFeed options) = "SHOW"
  ∧ (ShowNew.var_type (ShowNew.ShowHNNewsFeed options) ∉ FeedType.name <$> FeedType.values)
  ∧ FeedType.parseValue (ShowNew.var_type (ShowNew.ShowHNNewsFeed options)) = None.
Proof.
  split; [reflexivity|]. split; [|reflexivity].
  simpl. rewrite !elem_of_cons, elem_of_nil. intros H.
  repeat (destruct H as [H|H]; [discriminate|]). exact H.
Qed.

Lemma pageNumber_decimal (props : ShowNew.Props) (q : gmap string ShowNew.ParamValue) (n : Z) :
  ShowNew.query (ShowNew.url props) = Val q →
  q !! "p" = Some (ShowNew.Single (decimal n)) →
  Z.abs n ≤ 2 ^ 53 →
  ShowNew.pageNumber props = Some (Int n).
Proof.
  intros Hq Hp Hn. unfold ShowNew.pageNumber. rewrite Hq, Hp. simpl.
  rewrite (StringToNumber_decimal _ Hn). simpl.
  unfold to_boolean, ToBoolean_Number.
  destruct (Z.eqb_spec n 0) as [->|]; reflexivity.
Qed.

Lemma pageNumber_default (props : ShowNew.Props) :
  ShowNew.query (ShowNew.url props) = Undefined
  ∨ ShowNew.query (ShowNew.url props) = Null
  ∨ (∃ q, ShowNew.query (ShowNew.url props) = Val q
          ∧ (q !! "p" = None ∨ ShowNew.ToNumber_param (q !! "p") = Some NaN)) →
  ShowNew.pageNumber props = Some (Int 0).
Proof.
  unfold ShowNew.pageNumber. intros [-> | [-> | (q & -> & [-> | ->])]]; reflexivity.
Qed.

Lemma pageNumber_not_NaN (props : ShowNew.Props) : ShowNew.pageNumber props ≠ Some NaN.
Proof.
  unfold ShowNew.pageNumber. destruct (ShowNew.query (ShowNew.url props)) as [| |q]; try discriminate.
  destruct (ShowNew.ToNumber_param (q !! "p")) as [[|z]|]; simpl; try discriminate.
  unfold to_boolean, ToBoolean_Number. now destruct (z =? 0).
Qed.

(** C5: the page sends [first = 30] and [skip = 30 * p] for the page
    number [p] it read.  The page number is never NaN: it is the integer
    the URL parameter [p] writes in decimal, and 0 when the query or the
    parameter is absent or the parameter is not a number. *)
Theorem ShowNewPage_pagination (props : ShowNew.Props) :
  (∀ n, ShowNew.pageNumber props = Some (Int n) → Z.abs (30 * n) ≤ 2 ^ 53 →
     ShowNew.request props
     = Some {| ShowNew.var_type := "SHOW"; ShowNew.var_first := Int 30;
               ShowNew.var_skip := Int (30 * n) |})
  ∧ ShowNew.pageNumber props ≠ Some NaN
  ∧ (∀ q n, ShowNew.query (ShowNew.url props) = Val q →
            q !! "p" = Some (ShowNew.Single (decimal n)) →
            Z.abs n ≤ 2 ^ 53 →
            ShowNew.pageNumber props = Some (Int n))
  ∧ (ShowNew.query (ShowNew.url props) = Undefined
     ∨ ShowNew.query (ShowNew.url props) = Null
     ∨ (∃ q, ShowNew.query (ShowNew.url props) = Val q
             ∧ (q !! "p" = None ∨ ShowNew.ToNumber_param (q !! "p") = Some NaN)) →
     ShowNew.pageNumber props = Some (Int 0)).
Proof.
  split; [|split; [|split]].
  - intros n Hn Hsafe. unfold ShowNew.request, ShowNew.ShowNewPage. rewrite Hn. simpl.
    now rewrite (exact_safe _ Hsafe).
  - apply pageNumber_not_NaN.
  - intros q n. apply pageNumber_decimal.
  - apply pageNumber_default.
Qed.

Lemma ShowNewPage_pagination_witness :
  ShowNew.request
    {| ShowNew.url := {| ShowNew.pathname := "/shownew";
                         ShowNew.query := Val {[ "p" := ShowNew.Single "2" ]} |} |}
  = Some {| ShowNew.var_type := "SHOW"; ShowNew.var_first := Int 30; ShowNew.var_skip := Int 60 |}
  ∧ ShowNew.pageNumber
      {| ShowNew.url := {| ShowNew.pathname := "/shownew"; ShowNew.query := Undefined |} |}
    = Some (Int 0).
Proof.
  split.
  - apply (proj1 (ShowNewPage_pagination _) 2); [reflexivity | vm_compute; discriminate].
  - apply (proj2 (proj2 (proj2 (ShowNewPage_pagination _)))). left. reflexivity.
Defined.

(** * Further properties of the resolvers *)

(** ** The feed limit *)

(** Whenever [first] is given, as an integer or as [null], the limit handed
    to [FeedSingleton.getForType] is an integer from 1 to 30, and it is
    [first] itself when [first] already lies there. *)
Theorem feed_limit_in_range (args : Query.FeedArgs) (context : Context) :
  Query.first args ≠ Undefined →
  ∃ limit : Z,
    1 ≤ limit ≤ 30
    ∧ Query.feed args context
      = Delegate (FeedSingleton_getForType (Query.type args) (Val limit) (Query.skip args))
    ∧ (∀ z, Query.first args = Val z → 1 ≤ z ≤ 30 → limit = z).
Proof.
  destruct args as [type [| |z] skip]; simpl; intros Hfirst; [congruence | |].
  - exists 30. split; [lia|]. split; [apply feed_null_first | discriminate].
  - exists (if decide (0 < z ≤ 30) then z else 30).
    split; [case_decide; lia|]. split; [apply feed_integer_first|].
    intros ? [= <-] Hz. rewrite decide_True; [reflexivity | lia].
Qed.

Lemma feed_limit_in_range_witness :
  ∃ limit : Z,
    1 ≤ limit ≤ 30
    ∧ Query.feed {| Query.type := FeedType.new; Query.first := Val 500; Query.skip := Val 60 |}
        {| userId := Undefined |}
      = Delegate (FeedSingleton_getForType FeedType.new (Val limit) (Val 60)).
Proof.
  destruct (feed_limit_in_range
              {| Query.type := FeedType.new; Query.first := Val 500; Query.skip := Val 60 |}
              {| userId := Undefined |}) as (limit & Hrange & Hcall & _); [discriminate|].
  exists limit. split; [exact Hrange | exact Hcall].
Defined.

(** Clamping is idempotent: a limit the resolver computed, sent back as
    [first], is passed on as it is. *)
Theorem feed_limit_idempotent type (first limit skip : Nullable Z) (context : Context) :
  Query.feed {| Query.type := type; Query.first := first; Query.skip := skip |} context
  = Delegate (FeedSingleton_getForType type limit skip) →
  Query.feed {| Query.type := type; Query.first := limit; Query.skip := skip |} context
  = Delegate (FeedSingleton_getForType type limit skip).
Proof.
  destruct first as [| |z].
  - intros [= <-]. reflexivity.
  - intros [= <-]. reflexivity.
  - rewrite feed_integer_first. intros [= <-]. rewrite feed_integer_first.
    do 2 f_equal. repeat case_decide; try reflexivity; lia.
Qed.

Lemma feed_limit_idempotent_witness :
  Query.feed {| Query.type := FeedType.top; Query.first := Val 30; Query.skip := Null |}
    {| userId := Null |}
  = Delegate (FeedSingleton_getForType FeedType.top (Val 30) Null).
Proof.
  apply (feed_limit_idempotent FeedType.top (Val (-4)) (Val 30) Null {| userId := Null |}).
  reflexivity.
Defined.

(** ** Reading needs no login *)

(** The resolvers that read ([comment], [feed], [newsItem] and [user] of
    [Query], [author] and [comments] of a comment and of a news item,
    [posts] of a user) never look at [context.userId]: whoever asks, they
    take the same decision, and it is one service call, never an error. *)
Theorem reads_need_no_login (context context' : Context) :
  (∀ id, Query.comment id context = Query.comment id context'
         ∧ length (calls (Query.comment id context)) = 1%nat)
  ∧ (∀ args, Query.feed args context = Query.feed args context'
             ∧ length (calls (Query.feed args context)) = 1%nat)
  ∧ (∀ id, Query.newsItem id context = Query.newsItem id context'
           ∧ length (calls (Query.newsItem id context)) = 1%nat)
  ∧ (∀ id, Query.user id context = Query.user id context'
           ∧ length (calls (Query.user id context)) = 1%nat)
  ∧ (∀ c, Comment.author c context = Comment.author c context'
          ∧ Comment.comments c context = Comment.comments c context'
          ∧ length (calls (Comment.author c context)) = 1%nat
          ∧ length (calls (Comment.comments c context)) = 1%nat)
  ∧ (∀ n, NewsItem.author n context = NewsItem.author n context'
          ∧ NewsItem.comments n context = NewsItem.comments n context'
          ∧ length (calls (NewsItem.author n context)) = 1%nat
          ∧ length (calls (NewsItem.comments n context)) = 1%nat)
  ∧ (∀ u, User.posts u context = User.posts u context'
          ∧ length (calls (User.posts u context)) = 1%nat).
Proof. repeat split. Qed.

(** For a logged-in user, [me] makes the call that [user(id)] makes for
    that user's own id. *)
Theorem me_is_user_of_own_id (u : string) (context : Context) :
  u ≠ "" →
  calls (Query.me {| userId := Val u |}) = calls (Query.user u context).
Proof. destruct u; [congruence | reflexivity]. Qed.

Lemma me_is_user_of_own_id_witness :
  calls (Query.me {| userId := Val "alice" |}) = calls (Query.user "alice" {| userId := Null |}).
Proof. apply me_is_user_of_own_id. discriminate. Defined.

(** ** The submitted record *)

(** A client cannot choose the submitter: two argument objects that differ
    in [submitterId] only lead to the same outcome. *)
Theorem submitNewsItem_ignores_client_submitter
    (newsItem newsItem' : gmap string (Nullable string)) (context : Context) :
  delete "submitterId" newsItem = delete "submitterId" newsItem' →
  Mutation.submitNewsItem newsItem context = Mutation.submitNewsItem newsItem' context.
Proof.
  intros H. unfold Mutation.submitNewsItem.
  destruct (negb (to_boolean (userId context))); [reflexivity|].
  do 2 f_equal.
  rewrite <- (insert_delete_eq newsItem), <- (insert_delete_eq newsItem'). now rewrite H.
Qed.

Lemma submitNewsItem_ignores_client_submitter_witness :
  Mutation.submitNewsItem {[ "title" := Val "Ask HN"; "submitterId" := Val "mallory" ]}
    {| userId := Val "alice" |}
  = Mutation.submitNewsItem {[ "title" := Val "Ask HN" ]} {| userId := Val "alice" |}.
Proof.
  apply submitNewsItem_ignores_client_submitter. vm_compute. reflexivity.
Defined.

(** The record handed to the service has the properties of the arguments
    and [submitterId], and no other. *)
Theorem submitNewsItem_properties (newsItem : gmap string (Nullable string)) (context : Context) :
  to_boolean (userId context) = true →
  ∃ record : gmap string (Nullable string),
    calls (Mutation.submitNewsItem newsItem context) = [NewsItemService_submitNewsItem record]
    ∧ dom record = {["submitterId"]} ∪ dom newsItem.
Proof.
  intros H. unfold Mutation.submitNewsItem. rewrite H. simpl.
  eexists. split; [reflexivity|]. apply dom_insert_L.
Qed.

Lemma submitNewsItem_properties_witness :
  ∃ record : gmap string (Nullable string),
    calls (Mutation.submitNewsItem {[ "title" := Val "Ask HN" ]} {| userId := Val "alice" |})
    = [NewsItemService_submitNewsItem record]
    ∧ dom record = {["submitterId"]} ∪ dom ({[ "title" := Val "Ask HN" ]} : gmap string (Nullable string)).
Proof.
  apply (submitNewsItem_properties {[ "title" := Val "Ask HN" ]} {| userId := Val "alice" |}).
  reflexivity.
Defined.

(** ** The flags as the lists change *)

Lemma includes_app (l1 l2 : list (Nullable string)) (x : Nullable string) :
  includes (l1 ++ l2) x = includes l1 x || includes l2 x.
Proof.
  induction l1 as [|y l1 IH]; simpl; [reflexivity|].
  now destruct (SameValueZero x y).
Qed.

Lemma includes_singleton (v x : Nullable string) :
  includes [v] x = bool_decide (v = x).
Proof.
  simpl. destruct (SameValueZero x v) eqn:E.
  - apply SameValueZero_eq in E as ->. now rewrite bool_decide_eq_true_2.
  - rewrite bool_decide_eq_false_2; [reflexivity|]. intros ->.
    assert (SameValueZero x x = true) by (now apply SameValueZero_eq). congruence.
Qed.

(** One more id at the end of [upvotes] makes [upvoted] true for the user
    with that id and changes it for nobody else; [hidden] does not depend
    on [upvotes] at all.  The same holds for [hides] and [hidden]. *)
Theorem flags_after_one_more_id (newsItem : NewsItemModel) (v : Nullable string) (context : Context) :
  let voted := {| submitterId := submitterId newsItem; comments := comments newsItem;
                  hides := hides newsItem; upvotes := upvotes newsItem ++ [v] |} in
  let hid := {| submitterId := submitterId newsItem; comments := comments newsItem;
                hides := hides newsItem ++ [v]; upvotes := upvotes newsItem |} in
  NewsItem.upvoted voted context
  = (if decide (v = userId context) then true else NewsItem.upvoted newsItem context)
  ∧ NewsItem.hidden voted context = NewsItem.hidden newsItem context
  ∧ NewsItem.hidden hid context
    = (if decide (v = userId context) then true else NewsItem.hidden newsItem context)
  ∧ NewsItem.upvoted hid context = NewsItem.upvoted newsItem context.
Proof.
  unfold NewsItem.upvoted, NewsItem.hidden. simpl.
  rewrite !includes_app, !includes_singleton.
  repeat split; case_decide as Hv.
  - rewrite bool_decide_eq_true_2 by exact Hv. apply orb_true_r.
  - rewrite bool_decide_eq_false_2 by exact Hv. apply orb_false_r.
  - rewrite bool_decide_eq_true_2 by exact Hv. apply orb_true_r.
  - rewrite bool_decide_eq_false_2 by exact Hv. apply orb_false_r.
Qed.

(** The flags see the lists as sets: two lists with the same elements, in
    whatever order and however often repeated, give the same flag. *)
Theorem flags_depend_on_elements
    (comment comment' : CommentModel) (newsItem newsItem' : NewsItemModel) (context : Context) :
  (∀ x, x ∈ comment_upvotes comment ↔ x ∈ comment_upvotes comment') →
  (∀ x, x ∈ upvotes newsItem ↔ x ∈ upvotes newsItem') →
  (∀ x, x ∈ hides newsItem ↔ x ∈ hides newsItem') →
  Comment.upvoted comment context = Comment.upvoted comment' context
  ∧ NewsItem.upvoted newsItem context = NewsItem.upvoted newsItem' context
  ∧ NewsItem.hidden newsItem context = NewsItem.hidden newsItem' context.
Proof.
  intros Hc Hu Hh. unfold Comment.upvoted, NewsItem.upvoted, NewsItem.hidden.
  rewrite !includes_decide.
  repeat split; apply bool_decide_ext; auto.
Qed.

Lemma flags_depend_on_elements_witness :
  Comment.upvoted
    {| comment_submitterId := "bob"; comment_comments := [];
       comment_upvotes := [Val "alice"; Val "carol"; Val "alice"] |} {| userId := Val "carol" |}
  = Comment.upvoted
      {| comment_submitterId := "bob"; comment_comments := [];
         comment_upvotes := [Val "carol"; Val "alice"] |} {| userId := Val "carol" |}.
Proof.
  refine (proj1 (flags_depend_on_elements
            {| comment_submitterId := "bob"; comment_comments := [];
               comment_upvotes := [Val "alice"; Val "carol"; Val "alice"] |}
            {| comment_submitterId := "bob"; comment_comments := [];
               comment_upvotes := [Val "carol"; Val "alice"] |}
            {| submitterId := "bob"; comments := []; hides := []; upvotes := [] |}
            {| submitterId := "bob"; comments := []; hides := []; upvotes := [] |}
            {| userId := Val "carol" |} _ _ _)); simpl; intros x;
    rewrite ?elem_of_cons, ?elem_of_nil; tauto.
Defined.

(** ** The Date scalar, both ways *)

(** [serialize] never returns a [Date], and serializing twice is
    serializing once. *)
Theorem serialize_idempotent (value : Value) :
  instanceofDate (Date.serialize value) = false
  ∧ Date.serialize (Date.serialize value) = Date.serialize value.
Proof. now destruct value. Qed.

Lemma TimeClip_idempotent (t : Number) : TimeClip (TimeClip t) = TimeClip t.
Proof.
  destruct t as [|z]; simpl; [reflexivity|].
  case_decide as H; simpl; [|reflexivity]. now rewrite decide_True.
Qed.

(** A date survives the round trip: what [serialize] sends for a [Date],
    [parseValue] reads back as the time value of that date.  (The time
    value of a [Date] is clipped by construction.) *)
Theorem parseValue_serialize (time : Number) :
  TimeClip time = time →
  Date.parseValue (Date.serialize (VDate time)) = Some time
  ∧ Date.parseValue (VDate time) = Some time.
Proof.
  intros H. split; (change (Some (TimeClip time) = Some time); now rewrite H).
Qed.

Lemma parseValue_serialize_witness :
  Date.parseValue (Date.serialize (VDate (Int 1514764800000))) = Some (Int 1514764800000)
  ∧ Date.parseValue (VDate (Int 1514764800000)) = Some (Int 1514764800000).
Proof. apply parseValue_serialize. reflexivity. Defined.

(** [parseValue] only returns time values: NaN or a number of magnitude at
    most 8.64e15.  A number beyond that is read as NaN, not rejected, and
    reading what [parseValue] returned changes nothing. *)
Theorem parseValue_is_clipped (value : Value) (t : Number) :
  Date.parseValue value = Some t →
  (t = NaN ∨ ∃ z, t = Int z ∧ Z.abs z ≤ 8640000000000000)
  ∧ Date.parseValue (VNumber t) = Some t
  ∧ (∀ z, value = VNumber (Int z) → 8640000000000000 < Z.abs z → t = NaN).
Proof.
  unfold Date.parseValue. intros H.
  assert (∃ tv, t = TimeClip tv ∧ (∀ z, value = VNumber (Int z) → tv = Int z)) as (tv & -> & Hv).
  { destruct value as [| |b|n|s|time]; simpl in H; try discriminate; injection H as <-;
      [exists NaN | exists (Int 0) | exists (Int (if b then 1 else 0)) | exists n | exists time];
      (split; [reflexivity | congruence]). }
  split; [|split].
  - destruct tv as [|z]; simpl; [now left|]. case_decide; [right; eauto | now left].
  - simpl. now rewrite TimeClip_idempotent.
  - intros z Hz Hbig. rewrite (Hv z Hz). simpl. rewrite decide_False; [reflexivity | lia].
Qed.

Lemma parseValue_is_clipped_witness :
  Date.parseValue (VNumber (Int 8640000000000001)) = Some NaN
  ∧ Date.parseValue (VNumber NaN) = Some NaN.
Proof.
  split; [reflexivity|].
  apply (proj1 (proj2 (parseValue_is_clipped (VNumber (Int 8640000000000001)) NaN eq_refl))).
Defined.

(** An integer written inline in a query and the same integer sent as a
    variable are read alike inside the range of time values; beyond it the
    literal is returned as it is while the variable becomes NaN. *)
Theorem literal_and_variable (z : Z) :
  Z.abs z ≤ 2 ^ 53 →
  (Z.abs z ≤ 8640000000000000 →
     Date.parseLiteral (Date.IntValueNode (decimal z)) = Val <$> Date.parseValue (VNumber (Int z)))
  ∧ (8640000000000000 < Z.abs z →
     Date.parseLiteral (Date.IntValueNode (decimal z)) = Some (Val (Int z))
     ∧ Date.parseValue (VNumber (Int z)) = Some NaN).
Proof.
  intros Hz. split; intros H.
  - change (Val <$> parseInt (decimal z) = Val <$> Some (TimeClip (Int z))).
    rewrite (parseInt_decimal _ Hz). unfold TimeClip. now rewrite decide_True by lia.
  - split.
    + change (Val <$> parseInt (decimal z) = Some (Val (Int z))).
      now rewrite (parseInt_decimal _ Hz).
    + change (Some (TimeClip (Int z)) = Some NaN).
      unfold TimeClip. now rewrite decide_False by lia.
Qed.

Lemma literal_and_variable_witness :
  Date.parseLiteral (Date.IntValueNode (decimal 9000000000000000)) = Some (Val (Int 9000000000000000))
  ∧ Date.parseValue (VNumber (Int 9000000000000000)) = Some NaN.
Proof.
  apply (proj2 (literal_and_variable 9000000000000000 ltac:(vm_compute; discriminate))).
  reflexivity.
Defined.

(** ** The feed type names *)

(** Coercion and naming of the feed types are inverse to each other: each
    of the six values is read back from its name, and a text is accepted
    only if it is, letter for letter, the name of the value it gives. *)
Theorem FeedType_name_parseValue (v : FeedType.t) (s : string) :
  FeedType.parseValue (FeedType.name v) = Some v
  ∧ (FeedType.parseValue s = Some v ↔ s = FeedType.name v).
Proof.
  assert (FeedType.parseValue (FeedType.name v) = Some v) as Hv by now destruct v.
  split; [exact Hv|]. split; [|now intros ->].
  intros H. apply find_some in H as [_ H]. apply String.eqb_eq in H. now symmetry.
Qed.

(** ** Page numbers at the edges *)

Section PageNumber.

Import NilEmpty.

Ltac by_char a := destruct a as [[|] [|] [|] [|] [|] [|] [|] [|]]; try discriminate; reflexivity.

Lemma space_ascii a : isWhiteSpace a = true → isASCII a = true.
Proof. by_char a. Qed.

Lemma digit_numeric a : isDigit a = true → numericChar a = true.
Proof. by_char a. Qed.

Lemma chars_app s1 s2 : chars (s1 ++ s2) = (chars s1 ++ chars s2)%list.
Proof. unfold chars. induction s1 as [|a s1 IH]; simpl; [reflexivity|]. now rewrite IH. Qed.

Lemma forallb_In_false {A} (f : A → bool) l a : In a l → f a = false → forallb f l = false.
Proof.
  intros Hin Ha. destruct (forallb f l) eqn:E; [|reflexivity].
  rewrite forallb_forall in E. rewrite (E a Hin) in Ha. discriminate.
Qed.

Lemma trimStart_blank s : forallb isWhiteSpace (chars s) = true → trimStart s = "".
Proof.
  induction s as [|a s IH]; simpl; [reflexivity|].
  rewrite andb_true_iff. intros [-> Hs]. auto.
Qed.

Lemma trimStart_app_blank w s : forallb isWhiteSpace (chars w) = true → trimStart (w ++ s) = trimStart s.
Proof.
  induction w as [|a w IH]; simpl; [reflexivity|].
  rewrite andb_true_iff. intros [-> Hw]. auto.
Qed.

Lemma trimEnd_blank w : forallb isWhiteSpace (chars w) = true → trimEnd w = "".
Proof.
  induction w as [|a w IH]; simpl; [reflexivity|].
  rewrite andb_true_iff. intros [Ha Hw]. now rewrite (IH Hw), Ha.
Qed.

Lemma trimEnd_app_blank s w : forallb isWhiteSpace (chars w) = true → trimEnd (s ++ w) = trimEnd s.
Proof.
  intros Hw. induction s as [|a s IH]; simpl; [now apply trimEnd_blank|]. now rewrite IH.
Qed.

Lemma In_trimStart a s : In a (chars s) → isWhiteSpace a = false → In a (chars (trimStart s)).
Proof.
  intros Hin Ha. induction s as [|b s IH]; simpl in *; [exact Hin|].
  destruct (isWhiteSpace b) eqn:Hb; [|exact Hin].
  destruct Hin as [->|Hin]; [congruence | auto].
Qed.

Lemma In_trimEnd a s : In a (chars s) → isWhiteSpace a = false → In a (chars (trimEnd s)).
Proof.
  intros Hin Ha. induction s as [|b s IH]; simpl in *; [exact Hin|].
  destruct Hin as [->|Hin].
  - destruct (trimEnd s); [rewrite Ha|]; now left.
  - specialize (IH Hin). destruct (trimEnd s); [destruct IH|]. now right.
Qed.

(** A text that holds a character no numeric literal holds is NaN. *)
Lemma StringToNumber_foreign_char s a :
  forallb isASCII (chars s) = true → In a (chars s) →
  isWhiteSpace a = false → numericChar a = false →
  StringToNumber s = Some NaN.
Proof.
  intros Hascii Hin Hws Hnum. unfold StringToNumber. rewrite Hascii. cbn [negb].
  pose proof (In_trimEnd _ _ (In_trimStart _ _ Hin Hws) Hws) as Htext.
  set (text := trimEnd (trimStart s)) in *. clearbody text.
  assert (In a (chars (splitSign text).2)) as Hdigits.
  { destruct text as [|c rest]; [destruct Htext|]. simpl in Htext.
    destruct (Ascii.eqb_spec c "-") as [->|]; [|destruct (Ascii.eqb_spec c "+") as [->|]].
    - destruct Htext as [<-|H]; [discriminate | exact H].
    - destruct Htext as [<-|H]; [discriminate | exact H].
    - replace (splitSign (String c rest)) with (1, String c rest); [exact Htext|].
      clear -n n0. destruct c as [[|] [|] [|] [|] [|] [|] [|] [|]]; try reflexivity; congruence. }
  destruct (splitSign text) as [sign digits]. simpl in Hdigits.
  destruct text as [|c rest]; [destruct Htext|]. cbn [String.eqb].
  replace (String.eqb (String c rest) "") with false by now destruct c.
  assert (isDigit a = false) as Hd.
  { destruct (isDigit a) eqn:E; [|reflexivity]. apply digit_numeric in E. congruence. }
  rewrite (forallb_In_false isDigit _ a Hdigits Hd), andb_false_r.
  rewrite (forallb_In_false numericChar _ a Htext Hnum).
  destruct (String.eqb_spec digits "Infinity") as [->|]; [|now destruct (existsb _ _)].
  exfalso. simpl in Hdigits. clear -Hdigits Hnum.
  repeat (destruct Hdigits as [<-|Hdigits]; [discriminate|]). exact Hdigits.
Qed.

Lemma StringToNumber_blank s : forallb isWhiteSpace (chars s) = true → StringToNumber s = Some (Int 0).
Proof.
  intros Hs. unfold StringToNumber.
  assert (forallb isASCII (chars s) = true) as ->.
  { apply forallb_forall. intros a Ha. rewrite forallb_forall in Hs. auto using space_ascii. }
  now rewrite (trimStart_blank _ Hs).
Qed.

(** ToNumber looks at the trimmed text only. *)
Lemma StringToNumber_trimmed s s' :
  forallb isASCII (chars s) = true → forallb isASCII (chars s') = true →
  trimEnd (trimStart s) = trimEnd (trimStart s') →
  StringToNumber s = StringToNumber s'.
Proof. intros H H' E. unfold StringToNumber. now rewrite H, H', E. Qed.

Lemma decimal_head z : ∃ a rest, decimal z = String a rest ∧ isWhiteSpace a = false.
Proof.
  destruct z as [|p|p]; unfold decimal; simpl Z.to_int; cbn [string_of_int].
  - now exists "0"%char, "".
  - pose proof (string_of_uint_starts _ (DecimalPos.Unsigned.to_uint_nonnil p)) as Hs.
    destruct (string_of_uint (Pos.to_uint p)) as [|a rest]; [discriminate|].
    exists a, rest. split; [reflexivity|]. now apply digit_not_space.
  - now eexists _, _.
Qed.

Lemma decimal_ascii z : forallb isASCII (chars (decimal z)) = true.
Proof.
  destruct z as [|p|p]; unfold decimal; simpl Z.to_int; cbn [string_of_int]; [reflexivity | |].
  - apply forallb_digit_ascii, string_of_uint_digits.
  - cbn [chars list_ascii_of_string forallb]. change (isASCII "-") with true.
    apply (forallb_digit_ascii _ (string_of_uint_digits _)).
Qed.

Lemma StringToNumber_padded w1 w2 z :
  forallb isWhiteSpace (chars w1) = true → forallb isWhiteSpace (chars w2) = true →
  Z.abs z ≤ 2 ^ 53 →
  StringToNumber (w1 ++ decimal z ++ w2) = Some (Int z).
Proof.
  intros H1 H2 Hz. rewrite <- (StringToNumber_decimal z Hz).
  assert (∀ w, forallb isWhiteSpace (chars w) = true → forallb isASCII (chars w) = true) as Hws.
  { intros w Hw. apply forallb_forall. intros a Ha. rewrite forallb_forall in Hw.
    auto using space_ascii. }
  apply StringToNumber_trimmed.
  - rewrite !chars_app, !forallb_app, decimal_ascii. now rewrite !Hws.
  - apply decimal_ascii.
  - rewrite (trimStart_app_blank _ _ H1).
    destruct (decimal_head z) as (a & rest & -> & Ha). simpl. rewrite Ha.
    change (String a (rest ++ w2)) with (String a rest ++ w2).
    now rewrite trimEnd_app_blank.
Qed.

Lemma concat_comma (values : list string) :
  (2 ≤ length values)%nat → In ","%char (chars (String.concat "," values)).
Proof.
  destruct values as [|x [|y rest]]; simpl; try lia. intros _.
  rewrite chars_app. apply in_or_app. right. now left.
Qed.

Lemma concat_ascii (values : list string) :
  Forall (λ s, forallb isASCII (chars s) = true) values →
  forallb isASCII (chars (String.concat "," values)) = true.
Proof.
  induction 1 as [|x rest Hx Hrest IH]; [reflexivity|].
  destruct rest as [|y rest]; [exact Hx|].
  change (String.concat "," (x :: y :: rest)) with (x ++ "," ++ String.concat "," (y :: rest)).
  rewrite !chars_app, !forallb_app, Hx, IH. reflexivity.
Qed.

(** A parameter [p] given more than once ([?p=1&p=2]) reaches the page as
    an array, whose text holds a comma: the page number is 0. *)
Theorem pageNumber_repeated_parameter
    (props : ShowNew.Props) (q : gmap string ShowNew.ParamValue) (values : list string) :
  ShowNew.query (ShowNew.url props) = Val q →
  q !! "p" = Some (ShowNew.Repeated values) →
  (2 ≤ length values)%nat →
  Forall (λ s, forallb isASCII (chars s) = true) values →
  ShowNew.pageNumber props = Some (Int 0).
Proof.
  intros Hq Hp Hlen Hascii. unfold ShowNew.pageNumber. rewrite Hq, Hp. simpl.
  rewrite (StringToNumber_foreign_char _ "," (concat_ascii _ Hascii) (concat_comma _ Hlen));
    reflexivity.
Qed.

Lemma pageNumber_repeated_parameter_witness :
  ShowNew.pageNumber
    {| ShowNew.url := {| ShowNew.pathname := "/shownew";
                         ShowNew.query := Val {[ "p" := ShowNew.Repeated ["1"; "2"] ]} |} |}
  = Some (Int 0).
Proof.
  apply (pageNumber_repeated_parameter _ {[ "p" := ShowNew.Repeated ["1"; "2"] ]} ["1"; "2"]).
  - reflexivity.
  - reflexivity.
  - simpl. lia.
  - repeat constructor.
Defined.

(** A parameter [p] that is empty or blank ([?p=]) gives page 0, and one
    whose text holds a character that occurs in no number (a letter such
    as [z], a comma, a slash) gives page 0 as well. *)
Theorem pageNumber_blank_or_foreign
    (props : ShowNew.Props) (q : gmap string ShowNew.ParamValue) (s : string) :
  ShowNew.query (ShowNew.url props) = Val q →
  q !! "p" = Some (ShowNew.Single s) →
  forallb isWhiteSpace (chars s) = true
  ∨ (forallb isASCII (chars s) = true
     ∧ ∃ a, In a (chars s) ∧ isWhiteSpace a = false ∧ numericChar a = false) →
  ShowNew.pageNumber props = Some (Int 0).
Proof.
  intros Hq Hp Hs. unfold ShowNew.pageNumber. rewrite Hq, Hp. simpl.
  destruct Hs as [Hs | (Hascii & a & Hin & Hws & Hnum)].
  - now rewrite (StringToNumber_blank _ Hs).
  - now rewrite (StringToNumber_foreign_char _ a Hascii Hin Hws Hnum).
Qed.

Lemma pageNumber_blank_or_foreign_witness :
  ShowNew.pageNumber
    {| ShowNew.url := {| ShowNew.pathname := "/shownew";
                         ShowNew.query := Val {[ "p" := ShowNew.Single "last" ]} |} |}
  = Some (Int 0).
Proof.
  apply (pageNumber_blank_or_foreign _ {[ "p" := ShowNew.Single "last" ]} "last").
  - reflexivity.
  - reflexivity.
  - right. split; [reflexivity|]. exists "l"%char. repeat split. now left.
Defined.

(** White space around the number does not count: [p] with blanks before
    and after the decimal text of [n] gives page [n]. *)
Theorem pageNumber_padded
    (props : ShowNew.Props) (q : gmap string ShowNew.ParamValue) (w1 w2 : string) (n : Z) :
  ShowNew.query (ShowNew.url props) = Val q →
  q !! "p" = Some (ShowNew.Single (w1 ++ decimal n ++ w2)) →
  forallb isWhiteSpace (chars w1) = true →
  forallb isWhiteSpace (chars w2) = true →
  Z.abs n ≤ 2 ^ 53 →
  ShowNew.pageNumber props = Some (Int n).
Proof.
  intros Hq Hp H1 H2 Hn. unfold ShowNew.pageNumber. rewrite Hq, Hp. simpl.
  rewrite (StringToNumber_padded _ _ _ H1 H2 Hn). simpl.
  unfold to_boolean, ToBoolean_Number.
  destruct (Z.eqb_spec n 0) as [->|]; reflexivity.
Qed.

Lemma pageNumber_padded_witness :
  ShowNew.pageNumber
    {| ShowNew.url := {| ShowNew.pathname := "/shownew";
                         ShowNew.query := Val {[ "p" := ShowNew.Single " 3 " ]} |} |}
  = Some (Int 3).
Proof.
  apply (pageNumber_padded _ {[ "p" := ShowNew.Single " 3 " ]} " " " " 3).
  - reflexivity.
  - reflexivity.
  - reflexivity.
  - reflexivity.
  - vm_compute. discriminate.
Defined.

End PageNumber.

(** ** The page and the resolver together *)


